(** * Scenario generator of the inflation dashboard (src/app.py)

    A shallow embedding of [generate_scenario_data] and of the summary
    values the dashboard script derives from its result.

    The generator is embedded twice:
    - in exact arithmetic (module [np] and the definitions after it): a
      NumPy array is a [list R] and [+], [*], [/], [sin] and [exp] are the
      operations of [R].  The statements proved there are about the
      structure of the result (its rows, its dates, which inputs reach
      which values) and do not depend on rounding;
    - in binary64 arithmetic (module [F64]): a NumPy float64 is a primitive
      float, every operation rounds as IEEE 754 does, and [np.sin] and
      [np.exp] are parameters.  The statements about exact values are
      proved there.

    In both, a pandas timestamp at midnight is a calendar date
    [Timestamp], a Python exception is the [Raise] case of [Result], and
    the process-wide NumPy random generator is an explicit [RandomState]
    that every call receives and returns. *)

From Stdlib Require Import String List Sorted Permutation ZArith Bool Arith Lia.
From Stdlib Require Import Reals Lra.
From Stdlib Require Import Floats.
Import ListNotations.

(** ** Exceptions *)

Inductive exn : Type :=
| ValueError (msg : string)
| IndexError (msg : string).

Inductive Result (A : Type) : Type :=
| Ok (a : A)
| Raise (e : exn).

Arguments Ok {A} a.
Arguments Raise {A} e.

Definition bind {A B : Type} (m : Result A) (k : A -> Result B) : Result B :=
  match m with
  | Ok a => k a
  | Raise e => Raise e
  end.

Notation "x <- m ;; k" := (bind m (fun x => k))
  (at level 61, m at next level, right associativity).
Notation "' pat <- m ;; k" := (bind m (fun x => match x with pat => k end))
  (at level 61, pat pattern, m at next level, right associativity).

(** ** Calendar dates: [pd.Timestamp] and [pd.date_range(..., freq="M")] *)

Module pd.

Record Timestamp : Type := mkTimestamp { year : Z; month : Z; day : Z }.

Definition Timestamp_eqb (a b : Timestamp) : bool :=
  ((year a =? year b) && (month a =? month b) && (day a =? day b))%Z.

Definition Timestamp_ltb (a b : Timestamp) : bool :=
  ((year a <? year b)
   || ((year a =? year b)
       && ((month a <? month b)
           || ((month a =? month b) && (day a <? day b)))))%Z.

Definition Timestamp_leb (a b : Timestamp) : bool :=
  Timestamp_ltb a b || Timestamp_eqb a b.

Definition Timestamp_geb (a b : Timestamp) : bool := Timestamp_leb b a.

Definition is_leap_year (y : Z) : bool :=
  ((y mod 4 =? 0) && (negb (y mod 100 =? 0) || (y mod 400 =? 0)))%Z.

Definition days_in_month (y m : Z) : Z :=
  (if m =? 2 then (if is_leap_year y then 29 else 28)
   else if (m =? 4) || (m =? 6) || (m =? 9) || (m =? 11) then 30
   else 31)%Z.

(** The [MonthEnd] offset (frequency alias ["M"]). *)
Module MonthEnd.

Definition is_on_offset (t : Timestamp) : bool :=
  (day t =? days_in_month (year t) (month t))%Z.

Definition rollforward (t : Timestamp) : Timestamp :=
  if is_on_offset t then t
  else mkTimestamp (year t) (month t) (days_in_month (year t) (month t)).

(** [cur + MonthEnd(1)]: the next month end strictly after [cur]. *)
Definition apply (t : Timestamp) : Timestamp :=
  if is_on_offset t then
    let y := (if month t =? 12 then year t + 1 else year t)%Z in
    let m := (if month t =? 12 then 1 else month t + 1)%Z in
    mkTimestamp y m (days_in_month y m)
  else mkTimestamp (year t) (month t) (days_in_month (year t) (month t)).

End MonthEnd.

(** The generator loop of [date_range]:
    [while cur <= end: yield cur; if cur == end: break; cur = cur + offset].
    The recursion is on [fuel], an upper bound on the number of rounds. *)
Fixpoint generate_range (fuel : nat) (cur end_ : Timestamp) : list Timestamp :=
  match fuel with
  | O => []
  | S fuel' =>
      if Timestamp_leb cur end_ then
        cur :: (if Timestamp_eqb cur end_ then []
                else generate_range fuel' (MonthEnd.apply cur) end_)
      else []
  end.

(** One round per calendar month touched by [start .. end_], plus one. *)
Definition month_span (start end_ : Timestamp) : nat :=
  Z.to_nat (12 * (year end_ - year start) + (month end_ - month start) + 2).

Definition date_range_M (start end_ : Timestamp) : list Timestamp :=
  generate_range (month_span start end_) (MonthEnd.rollforward start) end_.

End pd.

Import pd.

Open Scope R_scope.

(** ** NumPy arrays and the operations the generator uses *)

Module np.

Definition ndarray : Type := list R.

Definition zeros (n : nat) : ndarray := repeat 0 n.

(** [np.arange(n)]: the integers [0 .. n-1]. *)
Definition arange (n : nat) : list nat := seq 0 n.

(** [y[-1] = v] on a non-empty array. *)
Definition set_last (y : ndarray) (v : R) : ndarray :=
  match y with
  | [] => []
  | _ :: _ => removelast y ++ [v]
  end.

(** [np.linspace(start, stop, num)] with the default [endpoint=True]:
    [step = (stop - start) / (num - 1)], the samples are
    [arange(num) * step + start] (with the library's separate path for a
    zero step) and the last sample is overwritten with [stop]. *)
Definition linspace (start stop : R) (num : nat) : ndarray :=
  let div := (num - 1)%nat in
  let delta := stop - start in
  let y := map INR (arange num) in
  let y :=
    if (0 <? div)%nat then
      let step := delta / INR div in
      if Req_dec_T step 0
      then map (fun v => v / INR div * delta) y
      else map (fun v => v * step) y
    else map (fun v => v * delta) y in
  let y := map (fun v => v + start) y in
  if (1 <? num)%nat then set_last y stop else y.

(** Element-wise binary operation on one-dimensional arrays, with NumPy's
    broadcasting rule: equal lengths, or one operand of length one. *)
Definition broadcast2 (f : R -> R -> R) (a b : ndarray) : Result ndarray :=
  if (length a =? length b)%nat then Ok (map (fun p => f (fst p) (snd p)) (combine a b))
  else match a, b with
       | [x], _ => Ok (map (f x) b)
       | _, [y] => Ok (map (fun x => f x y) a)
       | _, _ => Raise (ValueError "operands could not be broadcast together")
       end.

Definition add : ndarray -> ndarray -> Result ndarray := broadcast2 Rplus.

(** The slice assignment [a[start:] = v]. *)
Definition setitem_from (a : ndarray) (start : nat) (v : ndarray)
  : Result ndarray :=
  let room := (length a - start)%nat in
  if (length v =? room)%nat then Ok (firstn start a ++ v)
  else match v with
       | [x] => Ok (firstn start a ++ repeat x room)
       | _ => Raise (ValueError "could not broadcast input array")
       end.

(** The process-wide generator behind [np.random]: the standard-normal
    variates it will hand out next, in order. *)
Record RandomState : Type := mkRandomState { gauss : nat -> R }.

Definition advance (st : RandomState) (k : nat) : RandomState :=
  mkRandomState (fun i => gauss st (i + k)%nat).

(** [np.random.normal(loc, scale, size)]: a negative [scale] is refused
    with [ValueError]; otherwise [size] variates are consumed and each
    sample is [loc + scale * variate]. *)
Definition random_normal (loc scale : R) (size : nat) (st : RandomState)
  : Result (ndarray * RandomState) :=
  if Rlt_dec scale 0 then Raise (ValueError "scale < 0")
  else Ok (map (fun i => loc + scale * gauss st i) (arange size),
           advance st size).

End np.

(** ** The pandas containers the script uses *)

Record DataFrame : Type := mkDataFrame {
  Date : list Timestamp;
  Inflation : np.ndarray
}.

(** [pd.DataFrame({'Date': dates, 'Inflation': values})]. *)
Definition DataFrame_of_columns (dates : list Timestamp) (values : np.ndarray)
  : Result DataFrame :=
  if (length dates =? length values)%nat then Ok (mkDataFrame dates values)
  else Raise (ValueError "All arrays must be of the same length").

(** The rows of a frame: its (date, value) pairs in index order. *)
Definition rows (df : DataFrame) : list (Timestamp * R) :=
  combine (Date df) (Inflation df).

(** [df[mask]] for a boolean mask computed from the [Date] column. *)
Definition DataFrame_select (p : Timestamp -> bool) (df : DataFrame) : DataFrame :=
  let kept := filter (fun r => p (fst r)) (rows df) in
  mkDataFrame (map fst kept) (map snd kept).

(** [s.iloc[k]] with Python's negative indices. *)
Definition iloc (s : np.ndarray) (k : Z) : Result R :=
  let len := Z.of_nat (length s) in
  let k' := (if k <? 0 then k + len else k)%Z in
  if ((0 <=? k') && (k' <? len))%Z then
    match nth_error s (Z.to_nat k') with
    | Some v => Ok v
    | None => Raise (IndexError "single positional indexer is out-of-bounds")
    end
  else Raise (IndexError "single positional indexer is out-of-bounds").

(** [s.max()]; [None] stands for the NaN of an empty series. *)
Definition Series_max (s : np.ndarray) : option R :=
  match s with
  | [] => None
  | x :: xs => Some (fold_left Rmax xs x)
  end.

(** ** The generator: [generate_scenario_data] (app.py, lines 41-58) *)

Definition shock_start : nat := 48.

Definition trend (base_inflation : R) (n : nat) : np.ndarray :=
  np.linspace 2 base_inflation n.

Definition seasonality (n : nat) : np.ndarray :=
  map (fun x => sin x * (5 / 10)) (np.linspace 0 (8 * PI) n).

Definition shock_tail (shock_factor : R) (n : nat) : np.ndarray :=
  map (fun k => shock_factor * exp (- (1 / 10) * INR k))
      (np.arange (n - shock_start)).

Definition shock (shock_factor : R) (n : nat) : Result np.ndarray :=
  np.setitem_from (np.zeros n) shock_start (shock_tail shock_factor n).

Definition dates : list Timestamp :=
  date_range_M (mkTimestamp 2020 1 1) (mkTimestamp 2026 12 31).

Definition generate_scenario_data
  (base_inflation shock_factor volatility : R) (st : np.RandomState)
  : Result (DataFrame * np.RandomState) :=
  let n := length dates in
  let trend := trend base_inflation n in
  let seasonality := seasonality n in
  '(noise, st') <- np.random_normal 0 volatility n st ;;
  shock <- shock shock_factor n ;;
  v1 <- np.add trend seasonality ;;
  v2 <- np.add v1 noise ;;
  values <- np.add v2 shock ;;
  df <- DataFrame_of_columns dates values ;;
  Ok (df, st').

(** ** The dashboard script: values derived from the frame (lines 64-95) *)

Inductive Regime : Type := Stable | Uncertain | Chaotic.

Definition vol_map (r : Regime) : R :=
  match r with
  | Stable => 1 / 10
  | Uncertain => 4 / 10
  | Chaotic => 9 / 10
  end.

Definition curr_val (df : DataFrame) : Result R := iloc (Inflation df) (-1).
Definition peak_val (df : DataFrame) : option R := Series_max (Inflation df).
Definition pre_shock_val (df : DataFrame) : Result R := iloc (Inflation df) 47.

Definition horizon : Timestamp := mkTimestamp 2024 1 1.

Definition history (df : DataFrame) : DataFrame :=
  DataFrame_select (fun d => Timestamp_ltb d horizon) df.

Definition forecast (df : DataFrame) : DataFrame :=
  DataFrame_select (fun d => Timestamp_geb d horizon) df.

(** ** The statement of the generator, following the specification *)

Module Spec.

(** The month ends of the years 2020 to 2026, January to December. *)
Definition month_ends_2020_2026 : list Timestamp :=
  flat_map
    (fun y => map (fun m => mkTimestamp y m (days_in_month y m))
                  [1; 2; 3; 4; 5; 6; 7; 8; 9; 10; 11; 12]%Z)
    [2020; 2021; 2022; 2023; 2024; 2025; 2026]%Z.

Definition trend (targetInflation : R) (i : nat) : R :=
  2 + (targetInflation - 2) * INR i / 83.

Definition seasonality (i : nat) : R :=
  5 / 10 * sin (8 * PI * INR i / 83).

Definition shock (shockIntensity : R) (i : nat) : R :=
  if (i <? 48)%nat then 0
  else shockIntensity * exp (- (1 / 10) * (INR i - 48)).

Definition value (targetInflation shockIntensity : R) (i : nat) : R :=
  trend targetInflation i + seasonality i + shock shockIntensity i.

End Spec.

(** The values of the frame for a volatility that is not negative. *)
Definition value_with_noise
  (base_inflation shock_factor volatility : R) (st : np.RandomState) (i : nat) : R :=
  Spec.trend base_inflation i + Spec.seasonality i
  + (0 + volatility * np.gauss st i) + Spec.shock shock_factor i.

(** [l] is in strictly increasing date order. *)
Fixpoint chronological (l : list Timestamp) : bool :=
  match l with
  | [] => true
  | x :: l' => forallb (Timestamp_ltb x) l' && chronological l'
  end.

(** ** Further values the script derives (lines 70, 85 and 110-118) *)

(** The frame the script builds from the three widgets (line 70). *)
Definition dashboard_frame
  (base_target shock_magnitude : R) (volatility_idx : Regime)
  (st : np.RandomState) : Result (DataFrame * np.RandomState) :=
  generate_scenario_data base_target shock_magnitude (vol_map volatility_idx) st.

(** The delta of the first metric card: [curr_val - pre_shock_val]. *)
Definition delta_vs_pre_shock (df : DataFrame) : Result R :=
  c <- curr_val df ;;
  q <- pre_shock_val df ;;
  Ok (c - q).

(** The outline of the uncertainty band: the forecast dates followed by
    the same dates reversed, and the forecast values raised by 1.5
    followed by the values lowered by 1.5, reversed. *)
Definition band_x (df : DataFrame) : list Timestamp :=
  Date (forecast df) ++ rev (Date (forecast df)).

Definition band_y (df : DataFrame) : list R :=
  map (fun y => y + 15 / 10) (Inflation (forecast df))
  ++ rev (map (fun y => y - 15 / 10) (Inflation (forecast df))).

(** The number of the calendar month of a timestamp, and the months a
    calendar has. *)
Definition month_index (t : Timestamp) : Z := (12 * year t + month t)%Z.

Definition valid_month (t : Timestamp) : Prop := (1 <= month t <= 12)%Z.

(** ** The generator in binary64 arithmetic

    The same code with a NumPy float64 as a primitive binary64 float:
    every [+], [-], [*] and [/] rounds as IEEE 754 does.  The two library
    functions the signal calls, [np.sin] and [np.exp], are the fields of a
    [libm] the definitions take as a parameter. *)

Module F64.

Definition ndarray : Type := list float.

(** The float of a Python integer. *)
Definition of_nat (n : nat) : float :=
  PrimFloat.of_uint63 (Uint63.of_Z (Z.of_nat n)).

Definition zeros (n : nat) : ndarray := repeat 0%float n.

Definition set_last (y : ndarray) (v : float) : ndarray :=
  match y with
  | [] => []
  | _ :: _ => removelast y ++ [v]
  end.

(** [np.linspace(start, stop, num)], operation by operation:
    [delta = stop - start], [step = delta / div], then [y * step] (or
    [y / div * delta] when the step compares equal to 0), [y + start], and
    the last sample overwritten with [stop]. *)
Definition linspace (start stop : float) (num : nat) : ndarray :=
  let div := (num - 1)%nat in
  let delta := (stop - start)%float in
  let y := map of_nat (seq 0 num) in
  let y :=
    if (0 <? div)%nat then
      let step := (delta / of_nat div)%float in
      if (step =? 0)%float
      then map (fun v => v * delta)%float (map (fun v => v / of_nat div)%float y)
      else map (fun v => v * step)%float y
    else map (fun v => v * delta)%float y in
  let y := map (fun v => v + start)%float y in
  if (1 <? num)%nat then set_last y stop else y.

Definition broadcast2 (f : float -> float -> float) (a b : ndarray)
  : Result ndarray :=
  if (length a =? length b)%nat
  then Ok (map (fun p => f (fst p) (snd p)) (combine a b))
  else match a, b with
       | [x], _ => Ok (map (f x) b)
       | _, [y] => Ok (map (fun x => f x y) a)
       | _, _ => Raise (ValueError "operands could not be broadcast together")
       end.

Definition add : ndarray -> ndarray -> Result ndarray :=
  broadcast2 PrimFloat.add.

Definition setitem_from (a : ndarray) (start : nat) (v : ndarray)
  : Result ndarray :=
  let room := (length a - start)%nat in
  if (length v =? room)%nat then Ok (firstn start a ++ v)
  else match v with
       | [x] => Ok (firstn start a ++ repeat x room)
       | _ => Raise (ValueError "could not broadcast input array")
       end.

Record RandomState : Type := mkRandomState { gauss : nat -> float }.

Definition advance (st : RandomState) (k : nat) : RandomState :=
  mkRandomState (fun i => gauss st (i + k)%nat).

(** [np.random.normal(loc, scale, size)]: refused when the sign bit of a
    [scale] that is not NaN is set (so for a negative scale and for [-0.0]);
    otherwise each sample is [loc + scale * variate]. *)
Definition random_normal (loc scale : float) (size : nat) (st : RandomState)
  : Result (ndarray * RandomState) :=
  if get_sign scale then Raise (ValueError "scale < 0")
  else Ok (map (fun i => loc + scale * gauss st i)%float (seq 0 size),
           advance st size).

(** [np.sin] and [np.exp] on float64. *)
Record libm : Type := mklibm {
  libm_sin : float -> float;
  libm_exp : float -> float
}.

(** [np.pi], and the literal [-0.1]. *)
Definition pi : float := 0x1.921fb54442d18p+1%float.
Definition minus_tenth : float := (- 0x1.999999999999ap-4)%float.

Record DataFrame : Type := mkDataFrame {
  Date : list Timestamp;
  Inflation : ndarray
}.

Definition DataFrame_of_columns (dates : list Timestamp) (values : ndarray)
  : Result DataFrame :=
  if (length dates =? length values)%nat then Ok (mkDataFrame dates values)
  else Raise (ValueError "All arrays must be of the same length").

Definition trend (base_inflation : float) (n : nat) : ndarray :=
  linspace 2 base_inflation n.

Definition seasonality (lm : libm) (n : nat) : ndarray :=
  map (fun x => libm_sin lm x * 0.5)%float (linspace 0 (8 * pi) n).

Definition shock_tail (lm : libm) (shock_factor : float) (n : nat) : ndarray :=
  map (fun k => shock_factor * libm_exp lm (minus_tenth * of_nat k))%float
      (seq 0 (n - shock_start)).

Definition shock (lm : libm) (shock_factor : float) (n : nat) : Result ndarray :=
  setitem_from (zeros n) shock_start (shock_tail lm shock_factor n).

Definition generate_scenario_data (lm : libm)
  (base_inflation shock_factor volatility : float) (st : RandomState)
  : Result (DataFrame * RandomState) :=
  let n := length dates in
  let trend := trend base_inflation n in
  let seasonality := seasonality lm n in
  '(noise, st') <- random_normal 0 volatility n st ;;
  shock <- shock lm shock_factor n ;;
  v1 <- add trend seasonality ;;
  v2 <- add v1 noise ;;
  values <- add v2 shock ;;
  df <- DataFrame_of_columns dates values ;;
  Ok (df, st').

(** Sample [i] of [linspace start stop (div + 1)] before the last one. *)
Definition linspace_sample (start stop : float) (div i : nat) : float :=
  let delta := (stop - start)%float in
  let step := (delta / of_nat div)%float in
  ((if (step =? 0)%float then of_nat i / of_nat div * delta else of_nat i * step)
   + start)%float.

(** The three components at index [i], as the code above computes them. *)
Definition trend_at (base_inflation : float) (i : nat) : float :=
  if (i =? 83)%nat then base_inflation else linspace_sample 2 base_inflation 83 i.

Definition seasonality_at (lm : libm) (i : nat) : float :=
  (libm_sin lm (if (i =? 83)%nat then 8 * pi else linspace_sample 0 (8 * pi) 83 i)
   * 0.5)%float.

Definition shock_at (lm : libm) (shock_factor : float) (i : nat) : float :=
  if (i <? 48)%nat then 0%float
  else (shock_factor * libm_exp lm (minus_tenth * of_nat (i - 48)))%float.

(** The closed form of the trend, evaluated in binary64 as written:
    [2.0 + (target - 2.0) * i / 83]. *)
Definition trend_closed_form (target : float) (i : nat) : float :=
  (2 + (target - 2) * of_nat i / 83)%float.


(** The smallest positive float, [5e-324]. *)
Definition tiny : float := 0x0.0000000000001p-1022%float.

End F64.

(** The 901 targets the slider of line 64 can send, 1.00 to 10.00 in steps
    of 0.01. *)
Definition slider_targets : list float :=
  map (fun k => (F64.of_nat k / 100)%float) (seq 100 901).

(** * Properties of the calendar *)

Lemma dates_canonical : dates = Spec.month_ends_2020_2026.
Proof. vm_compute. reflexivity. Qed.

Lemma dates_length : length dates = 84%nat.
Proof. vm_compute. reflexivity. Qed.

(** The loop of [date_range] stops by itself: more fuel changes nothing. *)
Lemma dates_fuel_irrelevant (k : nat) :
  generate_range (month_span (mkTimestamp 2020 1 1) (mkTimestamp 2026 12 31) + k)
    (MonthEnd.rollforward (mkTimestamp 2020 1 1)) (mkTimestamp 2026 12 31)
  = dates.
Proof. vm_compute. reflexivity. Qed.

Lemma chronological_sorted (l : list Timestamp) :
  chronological l = true ->
  StronglySorted (fun a b => Timestamp_ltb a b = true) l.
Proof.
  induction l as [|x l IH]; simpl; intros H.
  - constructor.
  - apply andb_true_iff in H as [Hx Hl].
    constructor; [now apply IH|].
    now apply Forall_forall, forallb_forall.
Qed.

(** * Properties of the array operations *)

Lemma set_last_app (l : np.ndarray) (x v : R) :
  np.set_last (l ++ [x]) v = l ++ [v].
Proof.
  unfold np.set_last. destruct (l ++ [x]) eqn:E.
  - now destruct l.
  - rewrite <- E. now rewrite removelast_last.
Qed.

Lemma set_last_samples (f : R -> R) (start stop : R) (n : nat) :
  np.set_last (map (fun v => v + start) (map f (map INR (seq 0 (S n))))) stop
  = map (fun i => f (INR i) + start) (seq 0 n) ++ [stop].
Proof.
  rewrite seq_S, !map_app, !map_map. cbn [map].
  apply set_last_app.
Qed.

Lemma linspace_closed_form (start stop : R) (m : nat) :
  np.linspace start stop (S (S m)) =
  map (fun i => start + (stop - start) * INR i / INR (S m)) (seq 0 (S (S m))).
Proof.
  assert (Hm : INR (S m) <> 0) by (apply not_0_INR; lia).
  assert (Hlast : map (fun i => start + (stop - start) * INR i / INR (S m))
                      (seq 0 (S (S m)))
                  = map (fun i => start + (stop - start) * INR i / INR (S m))
                        (seq 0 (S m)) ++ [stop]).
  { rewrite (seq_S (S m) 0), map_app. cbn [map]. rewrite Nat.add_0_l.
    do 2 f_equal. field. exact Hm. }
  rewrite Hlast. unfold np.linspace, np.arange.
  replace (S (S m) - 1)%nat with (S m) by lia.
  change (0 <? S m)%nat with true. change (1 <? S (S m))%nat with true.
  cbv iota zeta.
  destruct (Req_dec_T ((stop - start) / INR (S m)) 0) as [Hz|Hnz];
    rewrite set_last_samples; f_equal; apply map_ext; intros i.
  - assert (stop - start = 0).
    { apply (Rmult_eq_compat_r (INR (S m))) in Hz.
      field_simplify in Hz; [lra | exact Hm]. }
    replace stop with start by lra. field. exact Hm.
  - field. exact Hm.
Qed.

Lemma add_map {A : Type} (f g : A -> R) (l : list A) :
  np.add (map f l) (map g l) = Ok (map (fun i => f i + g i) l).
Proof.
  unfold np.add, np.broadcast2.
  rewrite !length_map, Nat.eqb_refl. f_equal.
  induction l as [|a l IH]; cbn [map combine fst snd]; [reflexivity|].
  now rewrite IH.
Qed.

Lemma seq_from (a n : nat) :
  seq a n = map (fun k => (k + a)%nat) (seq 0 n).
Proof.
  induction a as [|a IH].
  - rewrite <- (map_id (seq 0 n)) at 1. apply map_ext. intros k. lia.
  - rewrite <- seq_shift, IH, map_map. apply map_ext. intros k. lia.
Qed.

Lemma INR_48 : INR 48 = 48.
Proof. rewrite INR_IZR_INZ. reflexivity. Qed.

Lemma INR_83 : INR 83 = 83.
Proof. rewrite INR_IZR_INZ. reflexivity. Qed.

(** * The components of the signal, in closed form *)

Lemma trend_closed_form (base_inflation : R) :
  trend base_inflation 84 = map (Spec.trend base_inflation) (seq 0 84).
Proof.
  unfold trend. rewrite linspace_closed_form. apply map_ext. intros i.
  unfold Spec.trend. now rewrite INR_83.
Qed.

Lemma seasonality_closed_form :
  seasonality 84 = map Spec.seasonality (seq 0 84).
Proof.
  unfold seasonality. rewrite linspace_closed_form, map_map.
  apply map_ext. intros i. unfold Spec.seasonality. rewrite INR_83.
  replace (0 + (8 * PI - 0) * INR i / 83) with (8 * PI * INR i / 83) by lra.
  lra.
Qed.

Lemma shock_closed_form (shock_factor : R) :
  shock shock_factor 84 = Ok (map (Spec.shock shock_factor) (seq 0 84)).
Proof.
  unfold shock, np.setitem_from, np.zeros, shock_tail, np.arange, shock_start.
  rewrite length_map, length_seq, repeat_length, Nat.eqb_refl. f_equal.
  change (seq 0 84) with (seq 0 (48 + 36)).
  rewrite seq_app, map_app. apply (f_equal2 (@app R)).
  - change (firstn 48 (repeat 0 84)) with (map (fun _ : nat => 0) (seq 0 48)).
    apply map_ext_in. intros i Hi. apply in_seq in Hi.
    unfold Spec.shock. destruct (Nat.ltb_spec i 48); [reflexivity | lia].
  - change (84 - 48)%nat with 36%nat.
    rewrite (seq_from (0 + 48) 36), map_map. apply map_ext. intros k.
    unfold Spec.shock. destruct (Nat.ltb_spec (k + (0 + 48)) 48); [lia|].
    rewrite plus_INR. change (0 + 48)%nat with 48%nat. rewrite INR_48.
    do 2 f_equal. lra.
Qed.

Lemma random_normal_Ok (loc scale : R) (size : nat) (st : np.RandomState) :
  0 <= scale ->
  np.random_normal loc scale size st
  = Ok (map (fun i => loc + scale * np.gauss st i) (seq 0 size),
        np.advance st size).
Proof.
  intros H. unfold np.random_normal.
  destruct (Rlt_dec scale 0); [lra | reflexivity].
Qed.

Lemma random_normal_negative (loc scale : R) (size : nat) (st : np.RandomState) :
  scale < 0 ->
  np.random_normal loc scale size st = Raise (ValueError "scale < 0").
Proof.
  intros H. unfold np.random_normal.
  destruct (Rlt_dec scale 0); [reflexivity | lra].
Qed.

Lemma generate_scenario_data_Ok
  (base_inflation shock_factor volatility : R) (st : np.RandomState) :
  0 <= volatility ->
  generate_scenario_data base_inflation shock_factor volatility st
  = Ok (mkDataFrame dates
          (map (value_with_noise base_inflation shock_factor volatility st)
               (seq 0 84)),
        np.advance st 84).
Proof.
  intros Hv. unfold generate_scenario_data.
  rewrite dates_length.
  rewrite (random_normal_Ok 0 volatility 84 st Hv). cbn [bind].
  rewrite shock_closed_form. cbn [bind].
  rewrite trend_closed_form, seasonality_closed_form.
  rewrite add_map. cbn [bind]. rewrite add_map. cbn [bind].
  rewrite add_map. cbn [bind].
  unfold DataFrame_of_columns.
  rewrite dates_length, length_map, length_seq. reflexivity.
Qed.

Lemma generate_scenario_data_deterministic
  (base_inflation shock_factor : R) (st : np.RandomState) :
  generate_scenario_data base_inflation shock_factor 0 st
  = Ok (mkDataFrame dates
          (map (Spec.value base_inflation shock_factor) (seq 0 84)),
        np.advance st 84).
Proof.
  rewrite generate_scenario_data_Ok by lra. do 3 f_equal.
  apply map_ext. intros i. unfold value_with_noise, Spec.value. lra.
Qed.

Lemma nth_error_map_seq (f : nat -> R) (n i : nat) :
  (i < n)%nat -> nth_error (map f (seq 0 n)) i = Some (f i).
Proof.
  intros H. rewrite nth_error_map, nth_error_seq.
  destruct (Nat.ltb_spec i n); [reflexivity | lia].
Qed.

Lemma nth_map_seq (f : nat -> R) (n i : nat) :
  (i < n)%nat -> nth i (map f (seq 0 n)) 0 = f i.
Proof.
  intros H. apply nth_error_nth. now apply nth_error_map_seq.
Qed.


Lemma spec_shock_before (s : R) (i : nat) :
  (i < 48)%nat -> Spec.shock s i = 0.
Proof.
  intros H. unfold Spec.shock. destruct (Nat.ltb_spec i 48); [reflexivity | lia].
Qed.


(** * The claims about the generator *)


(** C5: a negative volatility makes the noise step raise [ValueError], and
    the generator propagates it: no frame is returned, and the outcome is
    not the one of volatility 0. *)
Theorem C5_negative_volatility_rejected
  (targetInflation shockIntensity volatility : R) (st : np.RandomState) :
  volatility < 0 ->
  np.random_normal 0 volatility (length dates) st = Raise (ValueError "scale < 0")
  /\ generate_scenario_data targetInflation shockIntensity volatility st
     = Raise (ValueError "scale < 0")
  /\ (forall r, generate_scenario_data targetInflation shockIntensity volatility st
                <> Ok r)
  /\ generate_scenario_data targetInflation shockIntensity volatility st
     <> generate_scenario_data targetInflation shockIntensity 0 st.
Proof.
  intros Hv.
  assert (E : generate_scenario_data targetInflation shockIntensity volatility st
              = Raise (ValueError "scale < 0")).
  { unfold generate_scenario_data. now rewrite random_normal_negative. }
  split; [now apply random_normal_negative|]. split; [exact E|].
  rewrite E, generate_scenario_data_deterministic. split; [intros r|]; discriminate.
Qed.

Lemma C5_negative_volatility_witness :
  -1 < 0
  /\ generate_scenario_data 3.5 1.5 (-1) (np.mkRandomState (fun _ => 0))
     = Raise (ValueError "scale < 0").
Proof.
  split; [lra|].
  apply (C5_negative_volatility_rejected 3.5 1.5 (-1)
           (np.mkRandomState (fun _ => 0))). lra.
Defined.

(** C6: two successive calls with volatility 0 and the same arguments, the
    second one starting from the generator state the first one left, return
    the same frame. *)
Theorem C6_repeatable_without_volatility
  (targetInflation shockIntensity : R) (st : np.RandomState) :
  exists df st1 st2,
    generate_scenario_data targetInflation shockIntensity 0 st = Ok (df, st1)
    /\ generate_scenario_data targetInflation shockIntensity 0 st1 = Ok (df, st2).
Proof.
  eexists _, _, _. split; apply generate_scenario_data_deterministic.
Qed.

(** C10: with volatility 0 the first value of the frame is 2, whatever the
    target and the shock intensity. *)
Theorem C10_first_value (targetInflation shockIntensity : R) (st : np.RandomState) :
  exists df st',
    generate_scenario_data targetInflation shockIntensity 0 st = Ok (df, st')
    /\ nth_error (Inflation df) 0 = Some 2.
Proof.
  eexists _, _. split; [apply generate_scenario_data_deterministic|].
  cbn [Inflation]. rewrite nth_error_map_seq by lia. f_equal.
  unfold Spec.value, Spec.trend, Spec.seasonality.
  rewrite spec_shock_before by lia. change (INR 0) with 0.
  replace (8 * PI * 0 / 83) with 0 by lra. rewrite sin_0. lra.
Qed.

(** * Properties of the frame operations of the dashboard *)

Lemma iloc_nonneg (s : np.ndarray) (k : nat) (v : R) :
  nth_error s k = Some v -> iloc s (Z.of_nat k) = Ok v.
Proof.
  intros H. unfold iloc.
  assert (Hk : (k < length s)%nat) by (apply nth_error_Some; congruence).
  destruct (Z.ltb_spec (Z.of_nat k) 0) as [Hneg|_]; [lia|].
  destruct (Z.leb_spec 0 (Z.of_nat k)) as [_|Hneg]; [|lia].
  destruct (Z.ltb_spec (Z.of_nat k) (Z.of_nat (length s))) as [_|Hbig]; [|lia].
  cbn [andb]. now rewrite Nat2Z.id, H.
Qed.

Lemma iloc_last (s : np.ndarray) (n : nat) (v : R) :
  length s = S n -> nth_error s n = Some v -> iloc s (-1) = Ok v.
Proof.
  intros Hlen H. unfold iloc. rewrite Hlen.
  change (-1 <? 0)%Z with true. cbv iota.
  replace (-1 + Z.of_nat (S n))%Z with (Z.of_nat n) by lia.
  destruct (Z.leb_spec 0 (Z.of_nat n)) as [_|Hneg]; [|lia].
  destruct (Z.ltb_spec (Z.of_nat n) (Z.of_nat (S n))) as [_|Hbig]; [|lia].
  cbn [andb]. now rewrite Nat2Z.id, H.
Qed.

Lemma fold_left_Rmax_bounds (xs : list R) (x : R) :
  x <= fold_left Rmax xs x /\ Forall (fun y => y <= fold_left Rmax xs x) xs.
Proof.
  revert x. induction xs as [|y xs IH]; intros x; cbn [fold_left].
  - split; [lra | constructor].
  - destruct (IH (Rmax x y)) as [H1 H2].
    pose proof (Rmax_l x y). pose proof (Rmax_r x y).
    split; [lra|]. constructor; [lra | exact H2].
Qed.

Lemma fold_left_Rmax_In (xs : list R) (x : R) :
  In (fold_left Rmax xs x) (x :: xs).
Proof.
  revert x. induction xs as [|y xs IH]; intros x; cbn [fold_left].
  - now left.
  - destruct (IH (Rmax x y)) as [H|H].
    + unfold Rmax in H at 1. destruct (Rle_dec x y).
      * right. left. exact H.
      * left. exact H.
    + right. right. exact H.
Qed.

Lemma Series_max_spec (s : np.ndarray) :
  s <> [] ->
  exists p, Series_max s = Some p /\ In p s /\ Forall (fun y => y <= p) s.
Proof.
  destruct s as [|x xs]; [congruence|]. intros _.
  exists (fold_left Rmax xs x). split; [reflexivity|].
  split; [apply fold_left_Rmax_In|].
  destruct (fold_left_Rmax_bounds xs x). now constructor.
Qed.

(** Selecting the rows whose date satisfies [p], when the dates satisfying
    [p] are exactly the first [k] ones. *)
Lemma filter_rows_prefix (p : Timestamp -> bool) (ds : list Timestamp)
      (vs : np.ndarray) (k : nat) :
  forallb p (firstn k ds) = true ->
  forallb (fun d => negb (p d)) (skipn k ds) = true ->
  filter (fun r => p (fst r)) (combine ds vs) = firstn k (combine ds vs).
Proof.
  revert vs k. induction ds as [|d ds IH]; intros vs k Hpre Hsuf.
  - now rewrite firstn_nil.
  - destruct vs as [|v vs]; [now rewrite firstn_nil|].
    destruct k as [|k]; cbn [firstn skipn forallb combine filter fst] in *.
    + apply andb_true_iff in Hsuf as [Hd Hs].
      apply negb_true_iff in Hd. rewrite Hd.
      apply (IH vs 0%nat); [reflexivity | exact Hs].
    + apply andb_true_iff in Hpre as [Hd Hp]. rewrite Hd. f_equal.
      now apply IH.
Qed.

Lemma filter_rows_suffix (p : Timestamp -> bool) (ds : list Timestamp)
      (vs : np.ndarray) (k : nat) :
  forallb (fun d => negb (p d)) (firstn k ds) = true ->
  forallb p (skipn k ds) = true ->
  filter (fun r => p (fst r)) (combine ds vs) = skipn k (combine ds vs).
Proof.
  revert vs k. induction ds as [|d ds IH]; intros vs k Hpre Hsuf.
  - now rewrite skipn_nil.
  - destruct vs as [|v vs]; [now rewrite skipn_nil|].
    destruct k as [|k]; cbn [firstn skipn forallb combine filter fst] in *.
    + apply andb_true_iff in Hsuf as [Hd Hs]. rewrite Hd. f_equal.
      apply (IH vs 0%nat); [reflexivity | exact Hs].
    + apply andb_true_iff in Hpre as [Hd Hp].
      apply negb_true_iff in Hd. rewrite Hd. now apply IH.
Qed.

Lemma rows_of_select (p : Timestamp -> bool) (df : DataFrame) :
  rows (DataFrame_select p df) = filter (fun r => p (fst r)) (rows df).
Proof.
  unfold DataFrame_select, rows. cbn [Date Inflation].
  induction (filter (fun r => p (fst r)) (combine (Date df) (Inflation df)))
    as [|[d v] l IH]; cbn [map combine fst snd]; [reflexivity | now rewrite IH].
Qed.

Lemma map_fst_combine (ds : list Timestamp) (vs : np.ndarray) :
  length ds = length vs -> map fst (combine ds vs) = ds.
Proof.
  revert vs. induction ds as [|d ds IH]; intros [|v vs] H;
    cbn [combine map fst] in *; try reflexivity; try discriminate.
  f_equal. apply IH. now injection H.
Qed.

Lemma history_mask :
  forallb (fun d => Timestamp_ltb d horizon) (firstn 48 dates) = true
  /\ forallb (fun d => negb (Timestamp_ltb d horizon)) (skipn 48 dates) = true.
Proof. split; vm_compute; reflexivity. Qed.

Lemma forecast_mask :
  forallb (fun d => negb (Timestamp_geb d horizon)) (firstn 48 dates) = true
  /\ forallb (fun d => Timestamp_geb d horizon) (skipn 48 dates) = true.
Proof. split; vm_compute; reflexivity. Qed.

Lemma horizon_not_generated :
  existsb (Timestamp_eqb horizon) dates = false.
Proof. vm_compute. reflexivity. Qed.

Lemma Timestamp_eqb_refl (t : Timestamp) : Timestamp_eqb t t = true.
Proof. unfold Timestamp_eqb. now rewrite !Z.eqb_refl. Qed.

(** * The claims about the frame and the dashboard *)

(** C2: for every target, shock intensity and non-negative volatility the
    generator returns a frame of exactly 84 (date, value) rows; its dates
    are the 84 month ends from 2020-01-31 to 2026-12-31, in strictly
    increasing order, the same list whatever the parameters. *)
Theorem C2_fixed_calendar
  (targetInflation shockIntensity volatility : R) (st : np.RandomState) :
  0 <= volatility ->
  exists df st',
    generate_scenario_data targetInflation shockIntensity volatility st
    = Ok (df, st')
    /\ length (rows df) = 84%nat
    /\ length (Inflation df) = 84%nat
    /\ map fst (rows df) = Date df
    /\ Date df = Spec.month_ends_2020_2026
    /\ hd_error (Date df) = Some (mkTimestamp 2020 1 31)
    /\ nth_error (Date df) 83 = Some (mkTimestamp 2026 12 31)
    /\ forallb MonthEnd.is_on_offset (Date df) = true
    /\ StronglySorted (fun a b => Timestamp_ltb a b = true) (Date df).
Proof.
  intros Hv. eexists _, _.
  split; [now apply generate_scenario_data_Ok|].
  unfold rows. cbn [Date Inflation].
  assert (Hlen : length (map (value_with_noise targetInflation shockIntensity
                                volatility st) (seq 0 84)) = 84%nat)
    by now rewrite length_map, length_seq.
  split; [now rewrite length_combine, Hlen, dates_length|].
  split; [exact Hlen|].
  split; [apply map_fst_combine; now rewrite Hlen, dates_length|].
  split; [exact dates_canonical|].
  split; [vm_compute; reflexivity|].
  split; [vm_compute; reflexivity|].
  split; [vm_compute; reflexivity|].
  apply chronological_sorted. vm_compute. reflexivity.
Qed.

Lemma C2_fixed_calendar_witness :
  0 <= 4 / 10
  /\ exists df st',
       generate_scenario_data 3.5 1.5 (vol_map Uncertain)
         (np.mkRandomState (fun _ => 0)) = Ok (df, st')
       /\ Date df = Spec.month_ends_2020_2026.
Proof.
  split; [lra|].
  destruct (C2_fixed_calendar 3.5 1.5 (4 / 10) (np.mkRandomState (fun _ => 0)))
    as (df & st' & Hgen & _ & _ & _ & Hdates & _); [lra|].
  exists df, st'. split; [exact Hgen | exact Hdates].
Defined.

(** C7: for every target, shock intensity and non-negative volatility, the
    script's "current" value is the value at index 83 (the last row), its
    "pre-shock" value is the value at index 47 (dated 2023-12-31), and its
    "peak" value is the maximum of the 84 values: one of them, and at least
    each of them. *)
Theorem C7_dashboard_summaries
  (targetInflation shockIntensity volatility : R) (st : np.RandomState) :
  0 <= volatility ->
  exists df st' current pre_shock peak,
    generate_scenario_data targetInflation shockIntensity volatility st
    = Ok (df, st')
    /\ length (Inflation df) = 84%nat
    /\ curr_val df = Ok current
    /\ nth_error (Inflation df) 83 = Some current
    /\ pre_shock_val df = Ok pre_shock
    /\ nth_error (Inflation df) 47 = Some pre_shock
    /\ nth_error (Date df) 47 = Some (mkTimestamp 2023 12 31)
    /\ peak_val df = Some peak
    /\ In peak (Inflation df)
    /\ Forall (fun y => y <= peak) (Inflation df).
Proof.
  intros Hv.
  set (f := value_with_noise targetInflation shockIntensity volatility st).
  assert (Hlen : length (map f (seq 0 84)) = 84%nat)
    by now rewrite length_map, length_seq.
  destruct (Series_max_spec (map f (seq 0 84))) as (p & Hp & Hin & Hub).
  { intros E. rewrite E in Hlen. discriminate. }
  exists (mkDataFrame dates (map f (seq 0 84))), (np.advance st 84),
         (f 83%nat), (f 47%nat), p.
  split; [now apply generate_scenario_data_Ok|].
  unfold curr_val, pre_shock_val, peak_val. cbn [Date Inflation].
  assert (H83 : nth_error (map f (seq 0 84)) 83 = Some (f 83%nat))
    by (apply nth_error_map_seq; lia).
  assert (H47 : nth_error (map f (seq 0 84)) 47 = Some (f 47%nat))
    by (apply nth_error_map_seq; lia).
  split; [exact Hlen|].
  split; [exact (iloc_last _ 83 _ Hlen H83)|].
  split; [exact H83|].
  split; [exact (iloc_nonneg _ 47 _ H47)|].
  split; [exact H47|].
  split; [vm_compute; reflexivity|].
  split; [exact Hp|]. split; [exact Hin | exact Hub].
Qed.

Lemma C7_dashboard_summaries_witness :
  0 <= 4 / 10
  /\ exists df st' current,
       generate_scenario_data 3.5 1.5 (vol_map Uncertain)
         (np.mkRandomState (fun _ => 0)) = Ok (df, st')
       /\ curr_val df = Ok current
       /\ nth_error (Inflation df) 83 = Some current.
Proof.
  split; [lra|].
  destruct (C7_dashboard_summaries 3.5 1.5 (4 / 10)
              (np.mkRandomState (fun _ => 0)))
    as (df & st' & c & q & p & Hgen & _ & Hc & Hn & _); [lra|].
  exists df, st', c. repeat split; assumption.
Defined.

(** C8: with volatility 0 and one target, two runs with different shock
    intensities (and any generator states) return frames whose first 48
    rows are the same; in particular the "pre-shock" value of the script is
    the same for both. *)
Theorem C8_shock_does_not_reach_history
  (targetInflation s1 s2 : R) (st1 st2 : np.RandomState) :
  exists df1 df2 st1' st2' pre_shock,
    generate_scenario_data targetInflation s1 0 st1 = Ok (df1, st1')
    /\ generate_scenario_data targetInflation s2 0 st2 = Ok (df2, st2')
    /\ firstn 48 (rows df1) = firstn 48 (rows df2)
    /\ firstn 48 (Inflation df1) = firstn 48 (Inflation df2)
    /\ pre_shock_val df1 = Ok pre_shock
    /\ pre_shock_val df2 = Ok pre_shock.
Proof.
  assert (Hpre : forall s,
             firstn 48 (map (Spec.value targetInflation s) (seq 0 84))
             = map (fun i => Spec.trend targetInflation i + Spec.seasonality i)
                   (seq 0 48)).
  { intros s. rewrite firstn_map.
    change (firstn 48 (seq 0 84)) with (seq 0 48).
    apply map_ext_in. intros i Hi. apply in_seq in Hi.
    unfold Spec.value. rewrite spec_shock_before by lia. lra. }
  assert (H47 : forall s,
             nth_error (map (Spec.value targetInflation s) (seq 0 84)) 47
             = Some (Spec.trend targetInflation 47 + Spec.seasonality 47)).
  { intros s. rewrite nth_error_map_seq by lia. f_equal.
    unfold Spec.value. rewrite spec_shock_before by lia. lra. }
  eexists _, _, _, _, _.
  split; [apply generate_scenario_data_deterministic|].
  split; [apply generate_scenario_data_deterministic|].
  unfold rows, pre_shock_val. cbn [Date Inflation].
  split; [now rewrite !combine_firstn, !Hpre|].
  split; [now rewrite !Hpre|].
  split; [exact (iloc_nonneg _ 47 _ (H47 s1)) | exact (iloc_nonneg _ 47 _ (H47 s2))].
Qed.

(** C9: for every target, shock intensity and non-negative volatility, the
    script's split of the frame at 2024-01-01 puts rows 0..47 (48 rows) in
    the historical part and rows 48..83 (36 rows) in the forecast part; no
    row is dated 2024-01-01, and row 48, dated 2024-01-31, is the first row
    of the forecast part. *)
Theorem C9_history_forecast_split
  (targetInflation shockIntensity volatility : R) (st : np.RandomState) :
  0 <= volatility ->
  exists df st',
    generate_scenario_data targetInflation shockIntensity volatility st
    = Ok (df, st')
    /\ rows (history df) = firstn 48 (rows df)
    /\ length (rows (history df)) = 48%nat
    /\ rows (forecast df) = skipn 48 (rows df)
    /\ length (rows (forecast df)) = 36%nat
    /\ ~ In horizon (Date df)
    /\ nth_error (Date df) 48 = Some (mkTimestamp 2024 1 31)
    /\ hd_error (Date (forecast df)) = Some (mkTimestamp 2024 1 31)
    /\ ~ In (mkTimestamp 2024 1 31) (Date (history df)).
Proof.
  intros Hv.
  set (vs := map (value_with_noise targetInflation shockIntensity volatility st)
                 (seq 0 84)).
  assert (Hlen : length vs = 84%nat) by (unfold vs; now rewrite length_map, length_seq).
  assert (Hrows : length (combine dates vs) = 84%nat)
    by now rewrite length_combine, Hlen, dates_length.
  assert (Hh : rows (history (mkDataFrame dates vs))
               = firstn 48 (combine dates vs)).
  { unfold history. rewrite rows_of_select. unfold rows. cbn [Date Inflation].
    apply (filter_rows_prefix (fun d => Timestamp_ltb d horizon));
      apply history_mask. }
  assert (Hf : rows (forecast (mkDataFrame dates vs))
               = skipn 48 (combine dates vs)).
  { unfold forecast. rewrite rows_of_select. unfold rows. cbn [Date Inflation].
    apply (filter_rows_suffix (fun d => Timestamp_geb d horizon));
      apply forecast_mask. }
  assert (Hfd : Date (forecast (mkDataFrame dates vs)) = skipn 48 dates).
  { unfold forecast, DataFrame_select. cbn [Date].
    unfold rows. cbn [Date Inflation].
    rewrite (filter_rows_suffix (fun d => Timestamp_geb d horizon) dates vs 48)
      by apply forecast_mask.
    rewrite <- skipn_map, map_fst_combine; [reflexivity|].
    now rewrite Hlen, dates_length. }
  assert (Hhd : Date (history (mkDataFrame dates vs)) = firstn 48 dates).
  { unfold history, DataFrame_select. cbn [Date].
    unfold rows. cbn [Date Inflation].
    rewrite (filter_rows_prefix (fun d => Timestamp_ltb d horizon) dates vs 48)
      by apply history_mask.
    rewrite <- firstn_map, map_fst_combine; [reflexivity|].
    now rewrite Hlen, dates_length. }
  exists (mkDataFrame dates vs), (np.advance st 84).
  split; [now apply generate_scenario_data_Ok|].
  split; [exact Hh|].
  split; [rewrite Hh, length_firstn, Hrows; reflexivity|].
  split; [exact Hf|].
  split; [rewrite Hf, length_skipn, Hrows; reflexivity|].
  cbn [Date].
  split.
  { intros Hin.
    assert (E : existsb (Timestamp_eqb horizon) dates = true).
    { apply existsb_exists. exists horizon. split; [exact Hin|].
      apply Timestamp_eqb_refl. }
    rewrite horizon_not_generated in E. discriminate. }
  split; [vm_compute; reflexivity|].
  split; [rewrite Hfd; vm_compute; reflexivity|].
  rewrite Hhd. intros Hin.
  assert (E : existsb (Timestamp_eqb (mkTimestamp 2024 1 31)) (firstn 48 dates)
              = true).
  { apply existsb_exists. eexists. split; [exact Hin|].
    apply Timestamp_eqb_refl. }
  vm_compute in E. discriminate.
Qed.

Lemma C9_history_forecast_split_witness :
  0 <= 4 / 10
  /\ exists df st',
       generate_scenario_data 3.5 1.5 (vol_map Uncertain)
         (np.mkRandomState (fun _ => 0)) = Ok (df, st')
       /\ length (rows (history df)) = 48%nat
       /\ length (rows (forecast df)) = 36%nat.
Proof.
  split; [lra|].
  destruct (C9_history_forecast_split 3.5 1.5 (4 / 10)
              (np.mkRandomState (fun _ => 0)))
    as (df & st' & Hgen & _ & Hh & _ & Hf & _); [lra|].
  exists df, st'. repeat split; assumption.
Defined.



(** * A date of the calendar *)

Example scenario_february_2024 :
  nth_error dates 49 = Some (mkTimestamp 2024 2 29).
Proof. vm_compute. reflexivity. Qed.

(** * The order on timestamps *)

Lemma Timestamp_ltb_lt (a b : Timestamp) :
  Timestamp_ltb a b = true <->
  (year a < year b
   \/ (year a = year b
       /\ (month a < month b \/ (month a = month b /\ day a < day b))))%Z.
Proof.
  unfold Timestamp_ltb.
  rewrite !orb_true_iff, !andb_true_iff, !orb_true_iff, !andb_true_iff.
  rewrite !Z.ltb_lt, !Z.eqb_eq. reflexivity.
Qed.

Lemma Timestamp_eqb_eq (a b : Timestamp) :
  Timestamp_eqb a b = true <-> a = b.
Proof.
  unfold Timestamp_eqb. rewrite !andb_true_iff, !Z.eqb_eq.
  destruct a, b; cbn [year month day]. split.
  - intros [[-> ->] ->]. reflexivity.
  - intros E. injection E as -> -> ->. auto.
Qed.

Lemma Timestamp_leb_le (a b : Timestamp) :
  Timestamp_leb a b = true <-> (Timestamp_ltb a b = true \/ a = b).
Proof.
  unfold Timestamp_leb. now rewrite orb_true_iff, Timestamp_eqb_eq.
Qed.

Lemma Timestamp_ltb_trans (a b c : Timestamp) :
  Timestamp_ltb a b = true -> Timestamp_ltb b c = true ->
  Timestamp_ltb a c = true.
Proof. rewrite !Timestamp_ltb_lt. lia. Qed.

Lemma Timestamp_ltb_irrefl (a : Timestamp) : Timestamp_ltb a a = false.
Proof.
  destruct (Timestamp_ltb a a) eqn:E; [|reflexivity].
  apply Timestamp_ltb_lt in E. lia.
Qed.

Lemma Timestamp_leb_trans (a b c : Timestamp) :
  Timestamp_leb a b = true -> Timestamp_leb b c = true ->
  Timestamp_leb a c = true.
Proof.
  rewrite !Timestamp_leb_le. intros [H1| ->] [H2| ->]; auto.
  left. eapply Timestamp_ltb_trans; eassumption.
Qed.

Lemma Timestamp_ltb_leb_trans (a b c : Timestamp) :
  Timestamp_ltb a b = true -> Timestamp_leb b c = true ->
  Timestamp_ltb a c = true.
Proof.
  rewrite Timestamp_leb_le. intros H1 [H2| <-]; [|exact H1].
  eapply Timestamp_ltb_trans; eassumption.
Qed.

(** [d >= h] is the negation of [d < h]. *)
Lemma Timestamp_geb_negb_ltb (d h : Timestamp) :
  Timestamp_geb d h = negb (Timestamp_ltb d h).
Proof.
  destruct (Timestamp_ltb d h) eqn:Hlt; cbn [negb].
  - destruct (Timestamp_geb d h) eqn:Hge; [|reflexivity].
    unfold Timestamp_geb in Hge. apply Timestamp_leb_le in Hge.
    apply Timestamp_ltb_lt in Hlt. destruct Hge as [Hge| ->].
    + apply Timestamp_ltb_lt in Hge. lia.
    + lia.
  - unfold Timestamp_geb. apply Timestamp_leb_le.
    destruct (Timestamp_ltb h d) eqn:Hgt; [now left|]. right.
    assert (N1 : ~ Timestamp_ltb d h = true) by congruence.
    assert (N2 : ~ Timestamp_ltb h d = true) by congruence.
    rewrite Timestamp_ltb_lt in N1, N2.
    destruct d, h; cbn [year month day] in *. f_equal; lia.
Qed.

(** * [date_range] for arbitrary bounds *)

Lemma apply_on_offset (t : Timestamp) :
  MonthEnd.is_on_offset (MonthEnd.apply t) = true.
Proof.
  unfold MonthEnd.apply. destruct (MonthEnd.is_on_offset t);
    unfold MonthEnd.is_on_offset; cbn [year month day]; apply Z.eqb_refl.
Qed.

Lemma rollforward_on_offset (t : Timestamp) :
  MonthEnd.is_on_offset (MonthEnd.rollforward t) = true.
Proof.
  unfold MonthEnd.rollforward. destruct (MonthEnd.is_on_offset t) eqn:E;
    [exact E|]. unfold MonthEnd.is_on_offset; cbn [year month day].
  apply Z.eqb_refl.
Qed.

Lemma apply_increases (t : Timestamp) :
  MonthEnd.is_on_offset t = true ->
  Timestamp_ltb t (MonthEnd.apply t) = true.
Proof.
  intros H. unfold MonthEnd.apply. rewrite H.
  apply Timestamp_ltb_lt. cbn [year month day].
  destruct (Z.eqb_spec (month t) 12); lia.
Qed.

Lemma apply_month_index (t : Timestamp) :
  MonthEnd.is_on_offset t = true -> valid_month t ->
  valid_month (MonthEnd.apply t)
  /\ month_index (MonthEnd.apply t) = (month_index t + 1)%Z.
Proof.
  unfold valid_month, month_index, MonthEnd.apply. intros -> Hm.
  cbn [year month day]. destruct (Z.eqb_spec (month t) 12); lia.
Qed.

Lemma rollforward_month (t : Timestamp) :
  year (MonthEnd.rollforward t) = year t
  /\ month (MonthEnd.rollforward t) = month t.
Proof.
  unfold MonthEnd.rollforward. destruct (MonthEnd.is_on_offset t); auto.
Qed.

(** Two month ends of the same calendar month are the same timestamp. *)
Lemma on_offset_same_month (a b : Timestamp) :
  MonthEnd.is_on_offset a = true -> MonthEnd.is_on_offset b = true ->
  year a = year b -> month a = month b -> a = b.
Proof.
  unfold MonthEnd.is_on_offset. rewrite !Z.eqb_eq.
  destruct a, b; cbn [year month day]. intros -> -> -> ->. reflexivity.
Qed.

Lemma generate_range_on_offset (fuel : nat) (cur end_ : Timestamp) :
  MonthEnd.is_on_offset cur = true ->
  Forall (fun t => MonthEnd.is_on_offset t = true)
         (generate_range fuel cur end_).
Proof.
  revert cur. induction fuel as [|fuel IH]; intros cur Hc;
    cbn [generate_range]; [constructor|].
  destruct (Timestamp_leb cur end_); [|constructor].
  constructor; [exact Hc|].
  destruct (Timestamp_eqb cur end_); [constructor|].
  apply IH, apply_on_offset.
Qed.

Lemma generate_range_le_end (fuel : nat) (cur end_ : Timestamp) :
  Forall (fun t => Timestamp_leb t end_ = true) (generate_range fuel cur end_).
Proof.
  revert cur. induction fuel as [|fuel IH]; intros cur;
    cbn [generate_range]; [constructor|].
  destruct (Timestamp_leb cur end_) eqn:E; [|constructor].
  constructor; [exact E|].
  destruct (Timestamp_eqb cur end_); [constructor | apply IH].
Qed.

Lemma generate_range_ge_cur (fuel : nat) (cur end_ : Timestamp) :
  MonthEnd.is_on_offset cur = true ->
  Forall (fun t => Timestamp_leb cur t = true) (generate_range fuel cur end_).
Proof.
  revert cur. induction fuel as [|fuel IH]; intros cur Hc;
    cbn [generate_range]; [constructor|].
  destruct (Timestamp_leb cur end_); [|constructor].
  constructor; [apply Timestamp_leb_le; now right|].
  destruct (Timestamp_eqb cur end_); [constructor|].
  eapply Forall_impl; [|apply IH, apply_on_offset].
  cbn beta. intros t Ht. apply Timestamp_leb_le. left.
  eapply Timestamp_ltb_leb_trans; [now apply apply_increases | exact Ht].
Qed.

Lemma generate_range_sorted (fuel : nat) (cur end_ : Timestamp) :
  MonthEnd.is_on_offset cur = true ->
  StronglySorted (fun a b => Timestamp_ltb a b = true)
                 (generate_range fuel cur end_).
Proof.
  revert cur. induction fuel as [|fuel IH]; intros cur Hc;
    cbn [generate_range]; [constructor|].
  destruct (Timestamp_leb cur end_); [|constructor].
  destruct (Timestamp_eqb cur end_); [repeat constructor|].
  constructor; [apply IH, apply_on_offset|].
  eapply Forall_impl; [|apply generate_range_ge_cur, apply_on_offset].
  cbn beta. intros t Ht.
  eapply Timestamp_ltb_leb_trans; [now apply apply_increases | exact Ht].
Qed.

(** For month ends in valid months, the order of the timestamps is the
    order of their month numbers. *)
Lemma month_end_order (a b : Timestamp) :
  MonthEnd.is_on_offset a = true -> MonthEnd.is_on_offset b = true ->
  valid_month a -> valid_month b ->
  (Timestamp_ltb a b = true <-> (month_index a < month_index b)%Z)
  /\ (Timestamp_leb a b = true <-> (month_index a <= month_index b)%Z).
Proof.
  intros Ha Hb Va Vb. unfold valid_month, month_index in *.
  assert (Hlt : Timestamp_ltb a b = true
                <-> (12 * year a + month a < 12 * year b + month b)%Z).
  { rewrite Timestamp_ltb_lt. split.
    - intros [H|[Hy [H|[Hm Hd]]]]; try lia.
      assert (a = b) by now apply on_offset_same_month. subst. lia.
    - intros H. lia. }
  split; [exact Hlt|].
  rewrite Timestamp_leb_le, Hlt. split.
  - intros [H| ->]; lia.
  - intros H.
    destruct (Z.eq_dec (12 * year a + month a) (12 * year b + month b)) as [E|E];
      [right | left; lia].
    apply on_offset_same_month; try assumption; lia.
Qed.

Lemma generate_range_complete (fuel : nat) (cur end_ t : Timestamp) :
  MonthEnd.is_on_offset cur = true -> valid_month cur ->
  MonthEnd.is_on_offset t = true -> valid_month t ->
  Timestamp_leb cur t = true -> Timestamp_leb t end_ = true ->
  (month_index t - month_index cur < Z.of_nat fuel)%Z ->
  In t (generate_range fuel cur end_).
Proof.
  revert cur. induction fuel as [|fuel IH]; intros cur Hc Vc Ht Vt Hct Hte Hf.
  - apply (month_end_order cur t) in Hct; try assumption. lia.
  - cbn [generate_range].
    rewrite (Timestamp_leb_trans cur t end_ Hct Hte).
    destruct (Timestamp_eqb_eq cur t) as [_ Heq].
    apply Timestamp_leb_le in Hct as [Hlt| ->]; [|now left]. right.
    destruct (Timestamp_eqb cur end_) eqn:Ece.
    { apply Timestamp_eqb_eq in Ece. subst end_.
      apply Timestamp_leb_le in Hte as [H| ->].
      - pose proof (Timestamp_ltb_trans _ _ _ Hlt H) as Hbad.
        now rewrite Timestamp_ltb_irrefl in Hbad.
      - now rewrite Timestamp_ltb_irrefl in Hlt. }
    destruct (apply_month_index cur Hc Vc) as [Va Ia].
    apply (month_end_order cur t) in Hlt; try assumption.
    apply IH; try assumption.
    + apply apply_on_offset.
    + apply (month_end_order (MonthEnd.apply cur) t); try assumption.
      * apply apply_on_offset.
      * lia.
    + lia.
Qed.

(** With valid months the loop ends by its own test: a larger bound on the
    number of rounds gives the same dates. *)
Lemma generate_range_fuel (fuel fuel' : nat) (cur end_ : Timestamp) :
  MonthEnd.is_on_offset cur = true -> valid_month cur ->
  MonthEnd.is_on_offset end_ = true -> valid_month end_ ->
  (month_index end_ - month_index cur < Z.of_nat fuel)%Z ->
  (month_index end_ - month_index cur < Z.of_nat fuel')%Z ->
  generate_range fuel cur end_ = generate_range fuel' cur end_.
Proof.
  revert fuel' cur.
  assert (Hstop : forall f cur,
             MonthEnd.is_on_offset cur = true -> valid_month cur ->
             MonthEnd.is_on_offset end_ = true -> valid_month end_ ->
             (month_index end_ - month_index cur < 0)%Z ->
             generate_range f cur end_ = []).
  { intros [|f] cur Hc Vc He Ve Hlt; [reflexivity|]. cbn [generate_range].
    destruct (Timestamp_leb cur end_) eqn:E; [|reflexivity].
    apply (month_end_order cur end_) in E; try assumption. lia. }
  induction fuel as [|fuel IH]; intros fuel' cur Hc Vc He Ve H1 H2.
  - rewrite (Hstop fuel' cur) by (try assumption; lia). reflexivity.
  - destruct fuel' as [|fuel'].
    + rewrite (Hstop (S fuel) cur) by (try assumption; lia). reflexivity.
    + cbn [generate_range].
      destruct (Timestamp_leb cur end_); [|reflexivity]. f_equal.
      destruct (Timestamp_eqb cur end_); [reflexivity|].
      destruct (apply_month_index cur Hc Vc) as [Va Ia].
      apply IH; try assumption; try apply apply_on_offset; lia.
Qed.

Lemma generate_range_valid_month (fuel : nat) (cur end_ : Timestamp) :
  MonthEnd.is_on_offset cur = true -> valid_month cur ->
  Forall valid_month (generate_range fuel cur end_).
Proof.
  revert cur. induction fuel as [|fuel IH]; intros cur Hc Vc;
    cbn [generate_range]; [constructor|].
  destruct (Timestamp_leb cur end_); [|constructor].
  constructor; [exact Vc|].
  destruct (Timestamp_eqb cur end_); [constructor|].
  apply IH; [apply apply_on_offset | now apply apply_month_index].
Qed.

Lemma rollforward_ge (start : Timestamp) :
  (day start <= days_in_month (year start) (month start))%Z ->
  Timestamp_leb start (MonthEnd.rollforward start) = true.
Proof.
  intros Hd. apply Timestamp_leb_le. unfold MonthEnd.rollforward.
  destruct (MonthEnd.is_on_offset start) eqn:E; [now right|].
  unfold MonthEnd.is_on_offset in E. apply Z.eqb_neq in E.
  left. apply Timestamp_ltb_lt. cbn [year month day]. lia.
Qed.

(** X1: whatever the bounds, [date_range(start, end, freq="M")] yields
    month ends only, none after [end], in strictly increasing order (so
    without repetition). *)
Theorem date_range_M_month_ends_in_order (start end_ : Timestamp) :
  Forall (fun t => MonthEnd.is_on_offset t = true) (date_range_M start end_)
  /\ Forall (fun t => Timestamp_leb t end_ = true) (date_range_M start end_)
  /\ StronglySorted (fun a b => Timestamp_ltb a b = true)
                    (date_range_M start end_).
Proof.
  unfold date_range_M. split; [|split].
  - apply generate_range_on_offset, rollforward_on_offset.
  - apply generate_range_le_end.
  - apply generate_range_sorted, rollforward_on_offset.
Qed.

(** X2: for bounds that are calendar dates of the years 1678 to 2261 (all
    of them inside the range a pandas timestamp can hold),
    [date_range(start, end, freq="M")] holds exactly the month ends [t]
    with [start <= t <= end]: none is skipped and nothing else is
    produced. *)
Theorem date_range_M_exact (start end_ t : Timestamp) :
  (1678 <= year start)%Z -> (year end_ <= 2261)%Z ->
  valid_month start -> valid_month end_ ->
  (day start <= days_in_month (year start) (month start))%Z ->
  In t (date_range_M start end_)
  <-> (MonthEnd.is_on_offset t = true /\ valid_month t
       /\ Timestamp_leb start t = true /\ Timestamp_leb t end_ = true).
Proof.
  intros _ _ Vs Ve Hd. unfold date_range_M.
  pose proof (rollforward_on_offset start) as Hr.
  destruct (rollforward_month start) as [Hy Hm].
  assert (Vr : valid_month (MonthEnd.rollforward start))
    by (unfold valid_month in *; lia).
  split.
  - intros Hin. repeat split.
    + pose proof (generate_range_on_offset (month_span start end_) _ end_ Hr) as F.
      rewrite Forall_forall in F. now apply F.
    + pose proof (generate_range_valid_month (month_span start end_) _ end_ Hr Vr) as F.
      rewrite Forall_forall in F. now apply F.
    + pose proof (generate_range_valid_month (month_span start end_) _ end_ Hr Vr) as F.
      rewrite Forall_forall in F. now apply F.
    + pose proof (generate_range_ge_cur (month_span start end_) _ end_ Hr) as F.
      rewrite Forall_forall in F.
      eapply Timestamp_leb_trans; [now apply rollforward_ge | now apply F].
    + pose proof (generate_range_le_end (month_span start end_)
                    (MonthEnd.rollforward start) end_) as F.
      rewrite Forall_forall in F. now apply F.
  - intros (Ht & Vt & Hst & Hte).
    assert (Is : (month_index start <= month_index t)%Z).
    { apply Timestamp_leb_le in Hst as [H| ->]; [|lia].
      apply Timestamp_ltb_lt in H. unfold month_index, valid_month in *. lia. }
    assert (Ie : (month_index t <= month_index end_)%Z).
    { apply Timestamp_leb_le in Hte as [H| ->]; [|lia].
      apply Timestamp_ltb_lt in H. unfold month_index, valid_month in *. lia. }
    assert (Ir : month_index (MonthEnd.rollforward start) = month_index start)
      by (unfold month_index; lia).
    apply generate_range_complete; try assumption.
    + apply (month_end_order (MonthEnd.rollforward start) t); try assumption. lia.
    + unfold month_span. rewrite Ir. unfold month_index in *. lia.
Qed.

Lemma date_range_M_exact_witness :
  In (mkTimestamp 2024 2 29)
     (date_range_M (mkTimestamp 2020 1 1) (mkTimestamp 2026 12 31))
  <-> (MonthEnd.is_on_offset (mkTimestamp 2024 2 29) = true
       /\ valid_month (mkTimestamp 2024 2 29)
       /\ Timestamp_leb (mkTimestamp 2020 1 1) (mkTimestamp 2024 2 29) = true
       /\ Timestamp_leb (mkTimestamp 2024 2 29) (mkTimestamp 2026 12 31) = true).
Proof.
  apply (date_range_M_exact (mkTimestamp 2020 1 1) (mkTimestamp 2026 12 31)
           (mkTimestamp 2024 2 29)).
  - cbn [year]. lia.
  - cbn [year]. lia.
  - unfold valid_month. cbn [month]. lia.
  - unfold valid_month. cbn [month]. lia.
  - vm_compute. discriminate.
Defined.

(** * The split of an arbitrary frame at the forecast horizon *)

Lemma filter_negb_partition {A : Type} (p : A -> bool) (l : list A) :
  Permutation l (filter p l ++ filter (fun x => negb (p x)) l).
Proof.
  induction l as [|x l IH]; cbn [filter]; [constructor|].
  destruct (p x); cbn [negb app].
  - now constructor.
  - now apply Permutation_cons_app.
Qed.

Lemma forecast_rows_filter (df : DataFrame) :
  rows (forecast df)
  = filter (fun r => negb (Timestamp_ltb (fst r) horizon)) (rows df).
Proof.
  unfold forecast. rewrite rows_of_select. apply filter_ext.
  intros r. apply Timestamp_geb_negb_ltb.
Qed.

Lemma history_rows_filter (df : DataFrame) :
  rows (history df) = filter (fun r => Timestamp_ltb (fst r) horizon) (rows df).
Proof. unfold history. apply rows_of_select. Qed.

(** X3: for every frame, the historical part and the forecast part share
    the rows between them: together they are a rearrangement of the rows
    of the frame, so no row is lost, none is in both, and the two lengths
    add up to the length of the frame. *)
Theorem history_forecast_partition (df : DataFrame) :
  Permutation (rows df) (rows (history df) ++ rows (forecast df))
  /\ (length (rows (history df)) + length (rows (forecast df)))%nat
     = length (rows df)
  /\ Forall (fun r => Timestamp_ltb (fst r) horizon = true) (rows (history df))
  /\ Forall (fun r => Timestamp_ltb (fst r) horizon = false) (rows (forecast df)).
Proof.
  rewrite history_rows_filter, forecast_rows_filter.
  pose proof (filter_negb_partition
                (fun r : Timestamp * R => Timestamp_ltb (fst r) horizon)
                (rows df)) as P.
  split; [exact P|]. split.
  - apply Permutation_length in P. rewrite length_app in P. now symmetry.
  - split; apply Forall_forall; intros r Hr; apply filter_In in Hr as [_ Hr].
    + exact Hr.
    + now apply negb_true_iff.
Qed.

Lemma filter_rows_all_ge (h : Timestamp) (ds : list Timestamp) (vs : np.ndarray) :
  Forall (fun d => Timestamp_ltb d h = false) ds ->
  filter (fun r => Timestamp_ltb (fst r) h) (combine ds vs) = []
  /\ filter (fun r => negb (Timestamp_ltb (fst r) h)) (combine ds vs)
     = combine ds vs.
Proof.
  revert vs. induction ds as [|d ds IH]; intros vs F; [now split|].
  destruct vs as [|v vs]; [now split|].
  inversion F as [|? ? Hd Hds]; subst.
  cbn [combine filter fst]. rewrite Hd. cbn [negb].
  destruct (IH vs Hds) as [E1 E2]. now rewrite E1, E2.
Qed.

(** X4: for a frame whose dates are in increasing order, the split is a
    cut: the rows of the frame are the historical rows followed by the
    forecast rows. *)
Theorem history_then_forecast (df : DataFrame) :
  StronglySorted (fun a b => Timestamp_ltb a b = true) (Date df) ->
  rows df = rows (history df) ++ rows (forecast df).
Proof.
  rewrite history_rows_filter, forecast_rows_filter. unfold rows.
  generalize (Inflation df) as vs. induction (Date df) as [|d ds IH];
    intros vs S; [reflexivity|].
  destruct vs as [|v vs]; [reflexivity|].
  inversion S as [|? ? Sds Hd]; subst.
  cbn [combine filter fst].
  destruct (Timestamp_ltb d horizon) eqn:E; cbn [negb app].
  - f_equal. now apply IH.
  - assert (F : Forall (fun d' => Timestamp_ltb d' horizon = false) ds).
    { eapply Forall_impl; [|exact Hd]. cbn beta. intros d' Hdd'.
      destruct (Timestamp_ltb d' horizon) eqn:E'; [|reflexivity].
      rewrite (Timestamp_ltb_trans _ _ _ Hdd' E') in E. discriminate. }
    destruct (filter_rows_all_ge horizon ds vs F) as [E1 E2].
    now rewrite E1, E2.
Qed.

Lemma history_then_forecast_witness :
  rows (mkDataFrame [mkTimestamp 2023 12 31; mkTimestamp 2024 1 31] [2; 3])
  = rows (history (mkDataFrame [mkTimestamp 2023 12 31; mkTimestamp 2024 1 31]
                               [2; 3]))
    ++ rows (forecast (mkDataFrame [mkTimestamp 2023 12 31; mkTimestamp 2024 1 31]
                                   [2; 3])).
Proof.
  apply history_then_forecast. cbn [Date].
  apply chronological_sorted. vm_compute. reflexivity.
Defined.

(** * The uncertainty band and the metric cards of an arbitrary frame *)

Lemma select_columns (p : Timestamp -> bool) (df : DataFrame) :
  Date (DataFrame_select p df) = map fst (rows (DataFrame_select p df))
  /\ Inflation (DataFrame_select p df) = map snd (rows (DataFrame_select p df)).
Proof. rewrite rows_of_select. split; reflexivity. Qed.

Lemma nth_error_mirror {A : Type} (l r : list A) (i : nat) :
  (i < length r)%nat -> length l = length r ->
  nth_error (l ++ rev r) (2 * length r - 1 - i) = nth_error r i.
Proof.
  intros Hi Hl. rewrite nth_error_app2 by lia. rewrite nth_error_rev.
  destruct (Nat.ltb_spec (2 * length r - 1 - i - length l) (length r)); [|lia].
  f_equal. lia.
Qed.

(** X5: for every frame, the outline of the uncertainty band has one point
    per forecast row on the way out and one on the way back: the i-th point
    and the i-th point from the end carry the date of the i-th forecast
    row, the first 1.5 above its value and the second 1.5 below it. *)
Theorem band_outline (df : DataFrame) (i : nat) (d : Timestamp) (v : R) :
  nth_error (rows (forecast df)) i = Some (d, v) ->
  let n := length (rows (forecast df)) in
  length (band_x df) = (2 * n)%nat
  /\ length (band_y df) = (2 * n)%nat
  /\ nth_error (band_x df) i = Some d
  /\ nth_error (band_x df) (2 * n - 1 - i) = Some d
  /\ nth_error (band_y df) i = Some (v + 15 / 10)
  /\ nth_error (band_y df) (2 * n - 1 - i) = Some (v - 15 / 10).
Proof.
  intros Hi n. unfold band_x, band_y, forecast in *.
  destruct (select_columns (fun d => Timestamp_geb d horizon) df) as [-> ->].
  set (kept := rows (DataFrame_select (fun d => Timestamp_geb d horizon) df)) in *.
  assert (Hlt : (i < length kept)%nat) by (apply nth_error_Some; congruence).
  assert (Hd : nth_error (map fst kept) i = Some d)
    by (rewrite nth_error_map, Hi; reflexivity).
  assert (Hu : nth_error (map (fun y => y + 15 / 10) (map snd kept)) i
               = Some (v + 15 / 10))
    by (rewrite !nth_error_map, Hi; reflexivity).
  assert (Hl : nth_error (map (fun y => y - 15 / 10) (map snd kept)) i
               = Some (v - 15 / 10))
    by (rewrite !nth_error_map, Hi; reflexivity).
  split; [rewrite length_app, length_rev, length_map; unfold n; lia|].
  split; [rewrite length_app, length_rev, !length_map; unfold n; lia|].
  split; [rewrite nth_error_app1 by (rewrite length_map; lia); exact Hd|].
  split.
  { unfold n. rewrite <- (length_map fst kept).
    rewrite nth_error_mirror; [exact Hd | rewrite length_map; lia | reflexivity]. }
  split; [rewrite nth_error_app1 by (rewrite !length_map; lia); exact Hu|].
  unfold n.
  replace (length kept)
    with (length (map (fun y => y - 15 / 10) (map snd kept)))
    by now rewrite !length_map.
  rewrite nth_error_mirror; [exact Hl | rewrite !length_map; lia|].
  now rewrite !length_map.
Qed.

Lemma band_outline_witness :
  nth_error
    (band_x (mkDataFrame [mkTimestamp 2023 12 31; mkTimestamp 2024 1 31] [2; 3]))
    1 = Some (mkTimestamp 2024 1 31)
  /\ nth_error
       (band_y (mkDataFrame [mkTimestamp 2023 12 31; mkTimestamp 2024 1 31] [2; 3]))
       0 = Some (3 + 15 / 10)
  /\ nth_error
       (band_y (mkDataFrame [mkTimestamp 2023 12 31; mkTimestamp 2024 1 31] [2; 3]))
       1 = Some (3 - 15 / 10).
Proof.
  assert (H : nth_error
                (rows (forecast (mkDataFrame
                                   [mkTimestamp 2023 12 31; mkTimestamp 2024 1 31]
                                   [2; 3]))) 0
              = Some (mkTimestamp 2024 1 31, 3))
    by reflexivity.
  destruct (band_outline _ 0%nat (mkTimestamp 2024 1 31) 3 H)
    as (_ & _ & _ & Hx & Hu & Hl).
  repeat split; assumption.
Defined.

Lemma iloc_out_of_bounds (s : np.ndarray) (k : Z) :
  (k < - Z.of_nat (length s) \/ Z.of_nat (length s) <= k)%Z ->
  iloc s k = Raise (IndexError "single positional indexer is out-of-bounds").
Proof.
  intros H. unfold iloc.
  destruct (Z.ltb_spec k 0);
    [destruct (Z.leb_spec 0 (k + Z.of_nat (length s)))
    |destruct (Z.leb_spec 0 k)]; cbn [andb]; try reflexivity.
  - destruct (Z.ltb_spec (k + Z.of_nat (length s)) (Z.of_nat (length s)));
      [lia | reflexivity].
  - destruct (Z.ltb_spec k (Z.of_nat (length s))); [lia | reflexivity].
Qed.

(** X6: on an arbitrary frame, the "current" value is the last value of
    the column and fails with [IndexError] on an empty column; the
    "pre-shock" value is the value at index 47 and fails with [IndexError]
    when the column has fewer than 48 values; the "peak" value exists
    exactly when the column is not empty. *)
Theorem metric_cards_bounds (df : DataFrame) :
  (Inflation df = [] ->
   curr_val df = Raise (IndexError "single positional indexer is out-of-bounds"))
  /\ (Inflation df <> [] -> curr_val df = Ok (last (Inflation df) 0))
  /\ ((length (Inflation df) < 48)%nat ->
      pre_shock_val df
      = Raise (IndexError "single positional indexer is out-of-bounds"))
  /\ ((48 <= length (Inflation df))%nat ->
      pre_shock_val df = Ok (nth 47 (Inflation df) 0))
  /\ (peak_val df = None <-> Inflation df = []).
Proof.
  unfold curr_val, pre_shock_val, peak_val.
  generalize (Inflation df) as s. intros s. repeat split.
  - intros ->. reflexivity.
  - intros Hs.
    pose proof (app_removelast_last 0 Hs) as E.
    apply (iloc_last s (length (removelast s))).
    + rewrite E at 1. rewrite length_app. cbn [length]. lia.
    + rewrite E at 1. rewrite nth_error_app2 by lia.
      now rewrite Nat.sub_diag.
  - intros H. apply iloc_out_of_bounds. lia.
  - intros H. apply (iloc_nonneg s 47). apply nth_error_nth'. lia.
  - destruct s; [reflexivity | discriminate].
  - intros ->. reflexivity.
Qed.




(** * The generator with noise, and the script's call of it *)

Lemma value_with_noise_split (t s v : R) (st : np.RandomState) (i : nat) :
  value_with_noise t s v st i = Spec.value t s i + v * np.gauss st i.
Proof. unfold value_with_noise, Spec.value. lra. Qed.

Lemma vol_map_positive (r : Regime) : 0 < vol_map r.
Proof. destruct r; unfold vol_map; lra. Qed.

(** X10: whatever the widgets are set to, the call of the generator in the
    script succeeds: each of the three volatility regimes maps to a
    positive volatility (0.1, 0.4, 0.9), so the [ValueError] of the noise
    step cannot occur, and the frame has the 84 rows of the calendar. *)
Theorem dashboard_frame_never_raises
  (base_target shock_magnitude : R) (volatility_idx : Regime)
  (st : np.RandomState) :
  0 < vol_map volatility_idx
  /\ exists df st',
       dashboard_frame base_target shock_magnitude volatility_idx st
       = Ok (df, st')
       /\ length (rows df) = 84%nat
       /\ length (Inflation df) = 84%nat
       /\ Date df = dates.
Proof.
  pose proof (vol_map_positive volatility_idx) as Hv.
  split; [exact Hv|].
  eexists _, _. unfold dashboard_frame.
  split; [apply generate_scenario_data_Ok; lra|].
  unfold rows. cbn [Date Inflation].
  split; [now rewrite length_combine, dates_length, length_map, length_seq|].
  split; [now rewrite length_map, length_seq | reflexivity].
Qed.

Lemma spec_value_monotone (t1 t2 s1 s2 : R) (i : nat) :
  t1 <= t2 -> s1 <= s2 -> Spec.value t1 s1 i <= Spec.value t2 s2 i.
Proof.
  intros Ht Hs. unfold Spec.value, Spec.trend, Spec.shock.
  pose proof (pos_INR i) as Hi.
  assert ((t1 - 2) * INR i <= (t2 - 2) * INR i)
    by (apply Rmult_le_compat_r; lra).
  destruct (Nat.ltb_spec i 48); [lra|].
  pose proof (exp_pos (- (1 / 10) * (INR i - 48))) as He.
  assert (s1 * exp (- (1 / 10) * (INR i - 48))
          <= s2 * exp (- (1 / 10) * (INR i - 48)))
    by (apply Rmult_le_compat_r; lra).
  lra.
Qed.

(** X13: with the same volatility and the same generator state, raising
    the target or the shock intensity never lowers any value of the frame;
    the first value does not move at all. *)
Theorem values_monotone_in_target_and_shock
  (t1 t2 s1 s2 volatility : R) (st : np.RandomState) :
  0 <= volatility -> t1 <= t2 -> s1 <= s2 ->
  exists df1 df2 st1 st2,
    generate_scenario_data t1 s1 volatility st = Ok (df1, st1)
    /\ generate_scenario_data t2 s2 volatility st = Ok (df2, st2)
    /\ (forall i, (i < 84)%nat ->
                  nth i (Inflation df1) 0 <= nth i (Inflation df2) 0)
    /\ nth 0 (Inflation df1) 0 = nth 0 (Inflation df2) 0.
Proof.
  intros Hv Ht Hs. eexists _, _, _, _.
  split; [now apply generate_scenario_data_Ok|].
  split; [now apply generate_scenario_data_Ok|].
  cbn [Inflation]. split.
  - intros i Hi. rewrite !nth_map_seq by lia.
    rewrite !value_with_noise_split.
    pose proof (spec_value_monotone t1 t2 s1 s2 i Ht Hs). lra.
  - rewrite !nth_map_seq by lia. rewrite !value_with_noise_split.
    unfold Spec.value, Spec.trend. rewrite !spec_shock_before by lia.
    change (INR 0) with 0. lra.
Qed.

Lemma values_monotone_witness :
  exists df1 df2 st1 st2,
    generate_scenario_data 2 0 (1 / 10) (np.mkRandomState INR) = Ok (df1, st1)
    /\ generate_scenario_data 3.5 1.5 (1 / 10) (np.mkRandomState INR)
       = Ok (df2, st2)
    /\ nth 83 (Inflation df1) 0 <= nth 83 (Inflation df2) 0.
Proof.
  destruct (values_monotone_in_target_and_shock 2 3.5 0 1.5 (1 / 10)
              (np.mkRandomState INR))
    as (df1 & df2 & st1 & st2 & H1 & H2 & Hle & _); try lra.
  exists df1, df2, st1, st2. split; [exact H1|]. split; [exact H2|].
  apply Hle. lia.
Defined.



(** * Facts of binary64 arithmetic *)

Lemma Prim2SF_zero : Prim2SF 0%float = S754_zero false.
Proof. reflexivity. Qed.



(** A float is finite when it is a zero or has a mantissa and an exponent. *)
Lemma is_finite_shape (x : float) :
  is_finite x = true <->
  match Prim2SF x with
  | S754_zero _ | S754_finite _ _ _ => True
  | _ => False
  end.
Proof.
  unfold is_finite, is_nan, is_infinity.
  rewrite !FloatAxioms.eqb_spec, FloatAxioms.abs_spec.
  change (Prim2SF infinity) with (S754_infinity false).
  destruct (Prim2SF x) as [s|s| |s m e]; cbn.
  - tauto.
  - destruct s; cbn; split; intros H; try discriminate; contradiction.
  - split; intros H; try discriminate; contradiction.
  - rewrite Z.compare_refl. destruct s; rewrite Pos.compare_cont_refl; cbn; tauto.
Qed.

Lemma mul_zero_l (x : float) :
  is_finite x = true -> exists b, Prim2SF (0 * x) = S754_zero b.
Proof.
  intros H. apply is_finite_shape in H.
  rewrite FloatAxioms.mul_spec, Prim2SF_zero.
  destruct (Prim2SF x) as [s|s| |s m e]; try contradiction; cbn; eauto.
Qed.

Lemma add_zero_l_finite (z c : float) (b : bool) :
  Prim2SF z = S754_zero b ->
  (exists s m e, Prim2SF c = S754_finite s m e) ->
  (z + c)%float = c.
Proof.
  intros Hz (s & m & e & Hc). apply Prim2SF_inj.
  rewrite FloatAxioms.add_spec, Hz, Hc. reflexivity.
Qed.












(** A finite quotient by 83 has a finite dividend. *)
Lemma div_finite_dividend (x : float) :
  is_finite (x / F64.of_nat 83) = true -> is_finite x = true.
Proof.
  rewrite !is_finite_shape, FloatAxioms.div_spec.
  replace (Prim2SF (F64.of_nat 83))
    with (S754_finite false 5840605766746112 (-46)) by (vm_compute; reflexivity).
  destruct (Prim2SF x) as [s|s| |s m e]; cbn; tauto.
Qed.

(** * The binary64 arrays, element by element *)

Lemma nth_error_map_seq_at {A : Type} (f : nat -> A) (n i : nat) :
  (i < n)%nat -> nth_error (map f (seq 0 n)) i = Some (f i).
Proof.
  intros H. rewrite nth_error_map, nth_error_seq.
  destruct (Nat.ltb_spec i n); [reflexivity | lia].
Qed.

Lemma nth_map_seq_at {A : Type} (f : nat -> A) (d : A) (n i : nat) :
  (i < n)%nat -> nth i (map f (seq 0 n)) d = f i.
Proof.
  intros H. apply nth_error_nth. now apply nth_error_map_seq_at.
Qed.

Lemma F64_set_last_app (l : F64.ndarray) (x v : float) :
  F64.set_last (l ++ [x]) v = l ++ [v].
Proof.
  unfold F64.set_last. destruct (l ++ [x]) eqn:E.
  - now destruct l.
  - rewrite <- E. now rewrite removelast_last.
Qed.

Lemma F64_linspace_form (start stop : float) (m : nat) :
  F64.linspace start stop (S (S m))
  = map (F64.linspace_sample start stop (S m)) (seq 0 (S m)) ++ [stop].
Proof.
  unfold F64.linspace.
  replace (S (S m) - 1)%nat with (S m) by lia.
  change (0 <? S m)%nat with true. change (1 <? S (S m))%nat with true.
  cbv iota zeta.
  rewrite (seq_S (S m) 0).
  destruct ((stop - start) / F64.of_nat (S m) =? 0)%float eqn:E;
    rewrite !map_map, map_app; cbn [map]; rewrite F64_set_last_app;
    f_equal; apply map_ext; intros i; unfold F64.linspace_sample;
    rewrite E; reflexivity.
Qed.

Lemma F64_trend_form (base_inflation : float) :
  F64.trend base_inflation 84 = map (F64.trend_at base_inflation) (seq 0 84).
Proof.
  unfold F64.trend. rewrite F64_linspace_form.
  change (seq 0 84) with (seq 0 83 ++ [83%nat]). rewrite map_app.
  apply (f_equal2 (@app float)); [|reflexivity].
  apply map_ext_in. intros i Hi. apply in_seq in Hi. unfold F64.trend_at.
  destruct (Nat.eqb_spec i 83); [lia | reflexivity].
Qed.

Lemma F64_seasonality_form (lm : F64.libm) :
  F64.seasonality lm 84 = map (F64.seasonality_at lm) (seq 0 84).
Proof.
  unfold F64.seasonality. rewrite F64_linspace_form.
  change (seq 0 84) with (seq 0 83 ++ [83%nat]). rewrite !map_app, map_map.
  apply (f_equal2 (@app float)); [|reflexivity].
  apply map_ext_in. intros i Hi. apply in_seq in Hi. unfold F64.seasonality_at.
  destruct (Nat.eqb_spec i 83); [lia | reflexivity].
Qed.

Lemma F64_shock_form (lm : F64.libm) (shock_factor : float) :
  F64.shock lm shock_factor 84
  = Ok (map (F64.shock_at lm shock_factor) (seq 0 84)).
Proof.
  unfold F64.shock, F64.setitem_from, F64.zeros, F64.shock_tail, shock_start.
  rewrite length_map, length_seq, repeat_length, Nat.eqb_refl.
  reflexivity.
Qed.

Lemma F64_add_map {A : Type} (f g : A -> float) (l : list A) :
  F64.add (map f l) (map g l) = Ok (map (fun i => (f i + g i)%float) l).
Proof.
  unfold F64.add, F64.broadcast2.
  rewrite !length_map, Nat.eqb_refl. f_equal.
  induction l as [|a l IH]; cbn [map combine fst snd]; [reflexivity|].
  now rewrite IH.
Qed.

(** The frame for a volatility whose sign bit is clear. *)
Lemma F64_generate_scenario_data_Ok (lm : F64.libm)
  (base_inflation shock_factor volatility : float) (st : F64.RandomState) :
  get_sign volatility = false ->
  F64.generate_scenario_data lm base_inflation shock_factor volatility st
  = Ok (F64.mkDataFrame dates
          (map (fun i =>
                  (F64.trend_at base_inflation i + F64.seasonality_at lm i
                   + (0 + volatility * F64.gauss st i)
                   + F64.shock_at lm shock_factor i)%float)
               (seq 0 84)),
        F64.advance st 84).
Proof.
  intros Hv. unfold F64.generate_scenario_data, F64.random_normal.
  rewrite dates_length, Hv. cbn [bind].
  rewrite F64_shock_form. cbn [bind].
  rewrite F64_trend_form, F64_seasonality_form.
  rewrite F64_add_map. cbn [bind]. rewrite F64_add_map. cbn [bind].
  rewrite F64_add_map. cbn [bind].
  unfold F64.DataFrame_of_columns.
  rewrite dates_length, length_map, length_seq. reflexivity.
Qed.



(** * The claims that depend on rounding, in binary64 *)






(** C4: in binary64 the trend array starts at 2.0 and ends, at index 83,
    at the target, for every target whose interpolation step
    [(target - 2.0) / 83] is a finite float. *)
Theorem C4_trend_endpoints_binary64 (targetInflation : float) :
  is_finite ((targetInflation - 2) / F64.of_nat 83) = true ->
  length (F64.trend targetInflation (length dates)) = 84%nat
  /\ nth 0 (F64.trend targetInflation (length dates)) 0%float = 2%float
  /\ nth 83 (F64.trend targetInflation (length dates)) 0%float = targetInflation.
Proof.
  intros Hstep. rewrite dates_length, F64_trend_form.
  split; [now rewrite length_map, length_seq|].
  split; [|now rewrite nth_map_seq_at by lia].
  rewrite nth_map_seq_at by lia.
  unfold F64.trend_at, F64.linspace_sample. change (0 =? 83)%nat with false.
  cbv iota zeta.
  assert (Htwo : exists s m e, Prim2SF 2%float = S754_finite s m e)
    by (vm_compute; eauto).
  destruct ((targetInflation - 2) / F64.of_nat 83 =? 0)%float.
  - change (F64.of_nat 0 / F64.of_nat 83)%float with 0%float.
    destruct (mul_zero_l _ (div_finite_dividend _ Hstep)) as [b Hb].
    now apply (add_zero_l_finite _ _ b).
  - change (F64.of_nat 0) with 0%float.
    destruct (mul_zero_l _ Hstep) as [b Hb].
    now apply (add_zero_l_finite _ _ b).
Qed.

Lemma C4_trend_endpoints_binary64_witness :
  nth 0 (F64.trend 3.5 (length dates)) 0%float = 2%float
  /\ nth 83 (F64.trend 3.5 (length dates)) 0%float = 3.5%float.
Proof.
  destruct (C4_trend_endpoints_binary64 3.5) as (_ & H0 & H83);
    [vm_compute; reflexivity|].
  split; assumption.
Defined.

(** * The binary64 generator on the values the widgets can send *)

(** On every target of the slider the trend array starts at 2.0 and ends
    at the target. *)
Example slider_trend_endpoints :
  forallb (fun t => (nth 0 (F64.trend t 84) 0 =? 2)%float
                    && (nth 83 (F64.trend t 84) 0 =? t)%float
                    && is_finite ((t - 2) / F64.of_nat 83))
          slider_targets = true.
Proof. vm_compute. reflexivity. Qed.

(** The overwrite of the last sample is what makes the trend end at the
    target: the interpolated sample [83 * step + 2.0] misses it for 59 of
    the 901 targets of the slider, 1.32 among them. *)
Example slider_last_sample_without_overwrite :
  length (filter (fun t => negb (F64.linspace_sample 2 t 83 83 =? t)%float)
                 slider_targets) = 59%nat
  /\ (F64.linspace_sample 2 (F64.of_nat 132 / 100) 83 83
      =? F64.of_nat 132 / 100)%float = false.
Proof. split; vm_compute; reflexivity. Qed.

(** A volatility of [-0.0] is refused like a negative one. *)
Example negative_zero_volatility_raises
  (lm : F64.libm) (t s : float) (st : F64.RandomState) :
  F64.generate_scenario_data lm t s (-0)%float st
  = Raise (ValueError "scale < 0").
Proof. reflexivity. Qed.

(** X16: in binary64 the generator raises [ValueError] exactly when the
    sign bit of a volatility that is not NaN is set (a negative volatility,
    or [-0.0]); for every other volatility it returns a frame with the 84
    dates of the calendar and 84 values. *)
Theorem volatility_sign_decides (lm : F64.libm)
  (base_inflation shock_factor volatility : float) (st : F64.RandomState) :
  (get_sign volatility = true ->
   F64.generate_scenario_data lm base_inflation shock_factor volatility st
   = Raise (ValueError "scale < 0"))
  /\ (get_sign volatility = false ->
      exists df st',
        F64.generate_scenario_data lm base_inflation shock_factor volatility st
        = Ok (df, st')
        /\ F64.Date df = dates
        /\ length (F64.Inflation df) = 84%nat)
  /\ get_sign (-0)%float = true
  /\ get_sign (- F64.tiny)%float = true
  /\ get_sign 0%float = false
  /\ get_sign nan = false.
Proof.
  split; [|split].
  - intros H. unfold F64.generate_scenario_data, F64.random_normal.
    now rewrite H.
  - intros H. eexists _, _.
    split; [now apply F64_generate_scenario_data_Ok|].
    cbn [F64.Date F64.Inflation].
    split; [reflexivity | now rewrite length_map, length_seq].
  - repeat split; reflexivity.
Qed.

(** Outside the finite targets the trend does not start at 2.0: for an
    infinite target the step is infinite and [0.0 * step] is NaN. *)
Example infinite_target_trend_start :
  is_finite ((infinity - 2) / F64.of_nat 83) = false
  /\ is_nan (nth 0 (F64.trend infinity 84) 0%float) = true
  /\ nth 83 (F64.trend infinity 84) 0%float = infinity.
Proof. repeat split; vm_compute; reflexivity. Qed.
